(** * Studi backend: the route handlers of [routers/agents.py],
    [routers/users.py] and [routers/docs.py], embedded as Rocq functions.

    Conventions of the embedding.
    - A Python [str] is a [string]; the model covers ASCII text, on which
      [str.lower] maps [A-Z] to [a-z] and leaves every other character.
    - A Python value that travels as JSON is a [json]; a [dict] used as a
      mapping is a [gmap string json] (key order is not observable in the
      JSON object that is sent).
    - [raise] is the [Raise] case of [result]; a handler that mutates the
      module-level [fake_profiles_db] takes the store and returns it.
    - [await asyncio.sleep] only delays a handler and is left out. *)

From Stdlib Require Import Ascii ZArith NArith Floats.PrimFloat.
From stdpp Require Import base strings list gmap fin_maps.

Set Warnings "-register-all,-inexact-float".

(** ** Python strings *)

Module PyStr.

(** One character of [str.lower()] on ASCII text. *)
Definition ascii_lower (c : ascii) : ascii :=
  let n := N_of_ascii c in
  if ((65 <=? n) && (n <=? 90))%N then ascii_of_N (n + 32) else c.

(** [s.lower()] *)
Fixpoint lower (s : string) : string :=
  match s with
  | EmptyString => EmptyString
  | String c t => String (ascii_lower c) (lower t)
  end.

(** [s.startswith(sub)] *)
Fixpoint startswith (sub s : string) : bool :=
  match sub, s with
  | EmptyString, _ => true
  | String _ _, EmptyString => false
  | String a sub', String b s' => bool_decide (a = b) && startswith sub' s'
  end.

(** [sub in s]: [sub] occurs at some offset of [s]. *)
Fixpoint contains (sub s : string) : bool :=
  startswith sub s ||
  match s with
  | EmptyString => false
  | String _ t => contains sub t
  end.

(** Truth value of a string: [bool(s)]. *)
Definition truthy (s : string) : bool :=
  match s with
  | EmptyString => false
  | String _ _ => true
  end.

End PyStr.

(** ** JSON values, exceptions *)

Inductive json : Type :=
  | JNull
  | JBool (b : bool)
  | JInt (n : Z)
  | JFloat (f : float)
  | JStr (s : string)
  | JList (l : list json)
  | JDict (d : gmap string json).

Abbreviation dict := (gmap string json).

(** A dict display [{k1: v1, ...}] with distinct keys. *)
Definition mkdict (kvs : list (string * json)) : dict := list_to_map kvs.

(** [type(v).__name__] *)
Definition type_name (v : json) : string :=
  match v with
  | JNull => "NoneType"
  | JBool _ => "bool"
  | JInt _ => "int"
  | JFloat _ => "float"
  | JStr _ => "str"
  | JList _ => "list"
  | JDict _ => "dict"
  end.

Inductive exn : Type :=
  | JSONDecodeError (msg : string)
  | AttributeError (msg : string)
  | KeyError (key : string)
  | HTTPException (status_code : Z) (detail : string)
  | WebSocketDisconnect
  | OtherException (msg : string).

(** [str(e)] *)
Definition exn_str (e : exn) : string :=
  match e with
  | JSONDecodeError msg => msg
  | AttributeError msg => msg
  | KeyError key => "'" +:+ key +:+ "'"
  | HTTPException _ detail => detail
  | WebSocketDisconnect => ""
  | OtherException msg => msg
  end.

Inductive result (A : Type) : Type :=
  | Ok (a : A)
  | Raise (e : exn).
Arguments Ok {A} a.
Arguments Raise {A} e.

Definition bind {A B : Type} (r : result A) (k : A → result B) : result B :=
  match r with
  | Ok a => k a
  | Raise e => Raise e
  end.

Declare Scope py_scope.
Delimit Scope py_scope with py.
Notation "'let!' x := r 'in' k" := (bind r (fun x => k))
  (at level 10, x name, r at level 100, k at level 200) : py_scope.

(** Attribute lookup that fails: [v.name] on a value without it. *)
Definition no_attribute {A : Type} (v : json) (name : string) : result A :=
  Raise (AttributeError
    ("'" +:+ type_name v +:+ "' object has no attribute '" +:+ name +:+ "'")).

(** [v.lower()] *)
Definition py_lower (v : json) : result string :=
  match v with
  | JStr s => Ok (PyStr.lower s)
  | _ => no_attribute v "lower"
  end.

(** [v.get(key, fallback)] *)
Definition py_get (v : json) (key : string) (fallback : json) : result json :=
  match v with
  | JDict d => Ok (default fallback (d !! key))
  | _ => no_attribute v "get"
  end.

(** ** [routers/agents.py] *)

Module Agents.
Local Open Scope py_scope.

(** [mock_agent_response(query, context)]. The typed route passes a [str];
    the channel passes whatever [message.get] returned, and [query.lower()]
    raises on anything else. [context] is never read. *)
Definition mock_agent_response (query : json) (context : json) : result json :=
  let! q1 := py_lower query in
  if PyStr.contains "study guide" q1 then
    Ok (JDict (mkdict [
      ("response", JStr "I've created a study guide for your topic. Here are the key points to focus on...");
      ("sources", JList [
        JDict (mkdict [("title", JStr "Textbook Chapter 5");
                       ("url", JStr "https://example.com/textbook/chapter5")]);
        JDict (mkdict [("title", JStr "Lecture Notes Week 3");
                       ("url", JStr "https://example.com/lectures/week3")])]);
      ("context", JDict (mkdict [
        ("topic", JStr "Machine Learning Fundamentals");
        ("created_at", JStr "2023-06-15T10:30:00Z")]))]))
  else
    let! q2 := py_lower query in
    if PyStr.contains "assignment" q2 then
      Ok (JDict (mkdict [
        ("response", JStr "I'll help you with this assignment. Let's break it down step by step...");
        ("sources", JList [
          JDict (mkdict [("title", JStr "Assignment Guidelines");
                         ("url", JStr "https://example.com/assignments/guidelines")]);
          JDict (mkdict [("title", JStr "Related Examples");
                         ("url", JStr "https://example.com/examples")])]);
        ("context", JDict (mkdict [
          ("assignment_type", JStr "Problem Set");
          ("due_date", JStr "2023-06-20T23:59:00Z")]))]))
    else
      (* the f-string; [query] is a [str] here, [lower] has not raised *)
      match query with
      | JStr q =>
          Ok (JDict (mkdict [
            ("response", JStr ("I understand you're asking about: " +:+ q
                               +:+ ". How can I help you with this topic?"));
            ("sources", JList []);
            ("context", JDict (mkdict [
              ("query_type", JStr "general");
              ("timestamp", JStr "2023-06-15T10:30:00Z")]))]))
      | _ => no_attribute query "lower"
      end.

(** The request body [AgentQuery]. *)
Record AgentQuery := {
  query : string;
  context : option dict
}.

Definition opt_dict (o : option dict) : json :=
  match o with
  | Some d => JDict d
  | None => JNull
  end.

(** [POST /query] *)
Definition query_agent (q : AgentQuery) : result json :=
  mock_agent_response (JStr (query q)) (opt_dict (context q)).

(** [POST /plan] *)
Definition create_plan (q : AgentQuery) : json :=
  JDict (mkdict [
    ("steps", JList [
      JDict (mkdict [("step_id", JStr "1");
                     ("description", JStr "Analyze the query and identify key topics");
                     ("status", JStr "completed")]);
      JDict (mkdict [("step_id", JStr "2");
                     ("description", JStr "Retrieve relevant information from knowledge base");
                     ("status", JStr "in_progress")]);
      JDict (mkdict [("step_id", JStr "3");
                     ("description", JStr "Generate comprehensive response");
                     ("status", JStr "pending")]);
      JDict (mkdict [("step_id", JStr "4");
                     ("description", JStr "Review and refine response for accuracy");
                     ("status", JStr "pending")])]);
    ("context", JDict (mkdict [
      ("query", JStr (query q));
      ("plan_id", JStr "plan-123456");
      ("created_at", JStr "2023-06-15T10:30:00Z")]))]).

(** [GET /tasks/{task_id}] *)
Definition get_task_status (task_id : string) : json :=
  JDict (mkdict [
    ("task_id", JStr task_id);
    ("status", JStr "in_progress");
    ("progress", JFloat 0.65%float);
    ("result", JNull)]).

(** What [await websocket.receive_text()] gives the loop: a text frame, or
    [WebSocketDisconnect] once the peer has closed the channel. *)
Inductive incoming : Type :=
  | Text (data : string)
  | Disconnect.

(** Where the handler is after the events it was given. *)
Inductive ws_state : Type :=
  | Receiving
  | Exited.

Definition error_frame (msg : string) : json :=
  JDict (mkdict [("error", JStr msg)]).

Section WebSocket.
(** [json.loads] of the Python standard library. *)
Variable json_loads : string → result json.

(** The inner [try] of the loop body up to the value given to
    [send_json]. *)
Definition process (data : string) : result json :=
  let! message := json_loads data in
  let! query := py_get message "query" (JStr "") in
  let! context := py_get message "context" (JDict ∅) in
  mock_agent_response query context.

(** One pass of the loop body: the frame handed to [send_json]. *)
Definition reply (data : string) : json :=
  match process data with
  | Ok response => response
  | Raise (JSONDecodeError _) => error_frame "Invalid JSON format"
  | Raise e => error_frame ("Error processing request: " +:+ exn_str e)
  end.

(** [websocket_endpoint]: the frames sent so far are accumulated in
    [sent]. The [while True] loop leaves only through the outer
    [except WebSocketDisconnect: pass]. *)
Fixpoint websocket_endpoint (events : list incoming) (sent : list json)
  : ws_state * list json :=
  match events with
  | [] => (Receiving, sent)
  | Disconnect :: _ => (Exited, sent)
  | Text data :: rest => websocket_endpoint rest (sent ++ [reply data])
  end.
End WebSocket.

End Agents.

(** ** [routers/users.py] *)

Module Users.

(** Modelled from the spec: the [User] class of [routers/auth.py], which
    is not among the sources. The spec's Identity has a unique username,
    an optional email and full name, and an active flag; the handlers read
    [username], [email] and [full_name]. *)
Record User := {
  username : string;
  email : option string;
  full_name : option string;
  active : bool
}.

(** The request body [UserProfileUpdate]. *)
Record UserProfileUpdate := {
  upd_email : option string;
  upd_full_name : option string;
  upd_bio : option string;
  upd_avatar_url : option string;
  upd_preferences : option dict
}.

(** An [Optional[str]] attribute as the value stored in a profile. *)
Definition opt_str (o : option string) : json :=
  match o with
  | Some s => JStr s
  | None => JNull
  end.

(** The profile store: username to profile dict. *)
Abbreviation store := (gmap string dict).

Definition fake_profiles_db : store :=
  {[ "johndoe" := mkdict [
       ("username", JStr "johndoe");
       ("email", JStr "johndoe@example.com");
       ("full_name", JStr "John Doe");
       ("bio", JStr "I am a student interested in computer science and mathematics.");
       ("avatar_url", JStr "https://example.com/avatars/johndoe.jpg");
       ("preferences", JDict (mkdict [
          ("theme", JStr "dark");
          ("notifications", JBool true);
          ("study_reminder", JBool true)]))] ]}.

Definition default_preferences : dict :=
  mkdict [("theme", JStr "light");
          ("notifications", JBool true);
          ("study_reminder", JBool false)].

(** The dict display that the three writers store for a new username;
    they differ in the preferences they start from. *)
Definition new_profile (current_user : User) (prefs : dict) : dict :=
  mkdict [("username", JStr (username current_user));
          ("email", opt_str (email current_user));
          ("full_name", opt_str (full_name current_user));
          ("bio", JNull);
          ("avatar_url", JNull);
          ("preferences", JDict prefs)].

(** [if current_user.username not in fake_profiles_db:
       fake_profiles_db[current_user.username] = {...}] *)
Definition ensure_profile (current_user : User) (prefs : dict) (db : store)
  : store :=
  match db !! username current_user with
  | None => <[username current_user := new_profile current_user prefs]> db
  | Some _ => db
  end.

(** [fake_profiles_db[key]] *)
Definition db_getitem (db : store) (key : string) : result dict :=
  match db !! key with
  | Some p => Ok p
  | None => Raise (KeyError key)
  end.

(** [GET /profile] *)
Definition get_user_profile (current_user : User) (db : store)
  : result dict * store :=
  let db := ensure_profile current_user default_preferences db in
  (db_getitem db (username current_user), db).

(** [if value is not None: current_profile[key] = value] *)
Definition assign_if_given (key : string) (value : option string)
  (current_profile : dict) : dict :=
  match value with
  | Some v => <[key := JStr v]> current_profile
  | None => current_profile
  end.

(** [if "preferences" not in profile: profile["preferences"] = {}] *)
Definition ensure_preferences (profile : dict) : dict :=
  match profile !! "preferences" with
  | None => <["preferences" := JDict ∅]> profile
  | Some _ => profile
  end.

(** [profile["preferences"].update(preferences)]: [dict.update] writes
    every key of its argument over the receiver, in place. *)
Definition update_preferences_of (profile : dict) (preferences : dict)
  : result dict * dict :=
  match profile !! "preferences" with
  | Some (JDict old) =>
      let merged := preferences ∪ old in
      (Ok merged, <["preferences" := JDict merged]> profile)
  | Some v => (no_attribute v "update", profile)
  | None => (Raise (KeyError "preferences"), profile)
  end.

(** [PUT /profile]. [current_profile] is the dict held by the store, so
    the store sees each assignment, also when a later statement raises;
    [fake_profiles_db[...] = current_profile] stores it again. *)
Definition update_user_profile (profile_update : UserProfileUpdate)
  (current_user : User) (db : store) : result dict * store :=
  let key := username current_user in
  let db := ensure_profile current_user default_preferences db in
  match db_getitem db key with
  | Raise e => (Raise e, db)
  | Ok current_profile =>
      let current_profile :=
        assign_if_given "email" (upd_email profile_update) current_profile in
      let current_profile :=
        assign_if_given "full_name" (upd_full_name profile_update) current_profile in
      let current_profile :=
        assign_if_given "bio" (upd_bio profile_update) current_profile in
      let current_profile :=
        assign_if_given "avatar_url" (upd_avatar_url profile_update) current_profile in
      match upd_preferences profile_update with
      | None => (Ok current_profile, <[key := current_profile]> db)
      | Some preferences =>
          let current_profile := ensure_preferences current_profile in
          match update_preferences_of current_profile preferences with
          | (Ok _, current_profile) =>
              (Ok current_profile, <[key := current_profile]> db)
          | (Raise e, current_profile) =>
              (Raise e, <[key := current_profile]> db)
          end
      end
  end.

(** [GET /preferences] *)
Definition get_user_preferences (current_user : User) (db : store)
  : result json * store :=
  match db !! username current_user with
  | None => (Ok (JDict default_preferences), db)
  | Some profile =>
      (Ok (match profile !! "preferences" with
           | Some v => v
           | None => JDict ∅
           end), db)
  end.

(** [PUT /preferences] *)
Definition update_user_preferences (preferences : dict)
  (current_user : User) (db : store) : result dict * store :=
  let key := username current_user in
  let db := ensure_profile current_user ∅ db in
  match db_getitem db key with
  | Raise e => (Raise e, db)
  | Ok profile =>
      let profile := ensure_preferences profile in
      match update_preferences_of profile preferences with
      | (r, profile) => (r, <[key := profile]> db)
      end
  end.

End Users.

(** ** [routers/docs.py] *)

Module Docs.

(** [DocItem]; [summary] is [Optional[str]]. *)
Record DocItem := {
  item_id : string;
  category_id : string;
  item_title : string;
  path : string;
  summary : option string
}.

#[global] Instance DocItem_eq_dec : EqDecision DocItem.
Proof. solve_decision. Defined.

(** [DocContent]; the entries of [toc] are plain dicts. *)
Record DocContent := {
  content_id : string;
  content_title : string;
  content : string;
  toc : list dict;
  last_updated : string
}.

Definition doc_items : list DocItem := [
  {| item_id := "architecture-overview";
     category_id := "architecture";
     item_title := "Architecture Overview";
     path := "/docs/ARCHITECTURE.md";
     summary := Some "Overview of the Studi system architecture" |};
  {| item_id := "agent-architecture";
     category_id := "architecture";
     item_title := "Agent Architecture";
     path := "/docs/AGENT_ARCHITECTURE.md";
     summary := Some "Details of the multi-agent AI system" |};
  {| item_id := "memory-system";
     category_id := "architecture";
     item_title := "Memory System";
     path := "/docs/MEMORY_SYSTEM.md";
     summary := Some "Documentation of the multi-layered memory system" |};
  {| item_id := "web-architecture";
     category_id := "architecture";
     item_title := "Web Architecture";
     path := "/docs/WEB_ARCHITECTURE.md";
     summary := Some "Web application architecture and components" |};
  {| item_id := "getting-started";
     category_id := "user-guides";
     item_title := "Getting Started";
     path := "/docs/user-guides/GETTING_STARTED.md";
     summary := Some "Guide for new users to get started with Studi" |};
  {| item_id := "canvas-integration";
     category_id := "user-guides";
     item_title := "Canvas LMS Integration";
     path := "/docs/user-guides/CANVAS_INTEGRATION.md";
     summary := Some "How to connect Studi with Canvas LMS" |};
  {| item_id := "study-guide-creation";
     category_id := "user-guides";
     item_title := "Creating Study Guides";
     path := "/docs/user-guides/STUDY_GUIDES.md";
     summary := Some "How to create and use personalized study guides" |};
  {| item_id := "api-overview";
     category_id := "api";
     item_title := "API Overview";
     path := "/docs/api/OVERVIEW.md";
     summary := Some "Overview of the Studi API" |};
  {| item_id := "authentication";
     category_id := "api";
     item_title := "Authentication";
     path := "/docs/api/AUTHENTICATION.md";
     summary := Some "API authentication methods and examples" |};
  {| item_id := "deployment-guide";
     category_id := "deployment";
     item_title := "Deployment Guide";
     path := "/docs/DEPLOYMENT.md";
     summary := Some "Guide for deploying Studi in production" |}
].

Definition toc_entry (level : Z) (title id : string) : dict :=
  mkdict [("level", JInt level); ("title", JStr title); ("id", JStr id)].

Definition architecture_overview : DocContent :=
  {| content_id := "architecture-overview";
     content_title := "Architecture Overview";
     content := "
# Architecture Overview

Studi is built on a modern, scalable architecture designed to provide a seamless learning experience.

## Core Components

- **Multi-Agent AI System**: Specialized AI agents for planning, knowledge creation, and task execution
- **Memory System**: Multi-layered memory for context retention and knowledge creation
- **Web Application**: React frontend with FastAPI backend
- **Canvas LMS Integration**: Seamless connection to Canvas courses and assignments

## System Diagram

```
User <-> Web App <-> API Gateway <-> Agent System <-> Memory System
                                  <-> Canvas API
```

## Data Flow

1. User interacts with the web application
2. Requests are processed by the API Gateway
3. The Agent System handles complex tasks using specialized agents
4. The Memory System stores and retrieves relevant information
5. Canvas API integration provides access to course materials and assignments
";
     toc := [
       toc_entry 1 "Architecture Overview" "architecture-overview";
       toc_entry 2 "Core Components" "core-components";
       toc_entry 2 "System Diagram" "system-diagram";
       toc_entry 2 "Data Flow" "data-flow"];
     last_updated := "2023-06-15" |}.

Definition doc_content : gmap string DocContent :=
  {[ "architecture-overview" := architecture_overview ]}.

(** [DocCategory] *)
Record DocCategory := {
  cat_id : string;
  name : string;
  description : string;
  icon : string
}.

Definition doc_categories : list DocCategory := [
  {| cat_id := "architecture";
     name := "Architecture";
     description := "System architecture and design documentation";
     icon := "cube" |};
  {| cat_id := "user-guides";
     name := "User Guides";
     description := "Guides for using the Studi platform";
     icon := "book-open" |};
  {| cat_id := "development";
     name := "Development";
     description := "Documentation for developers";
     icon := "code" |};
  {| cat_id := "api";
     name := "API Documentation";
     description := "API reference and usage examples";
     icon := "server" |};
  {| cat_id := "deployment";
     name := "Deployment & Operations";
     description := "Deployment guides and operational procedures";
     icon := "cloud" |};
  {| cat_id := "security";
     name := "Security & Compliance";
     description := "Security documentation and compliance information";
     icon := "shield-check" |}
].

(** [GET /categories] *)
Definition get_doc_categories : list DocCategory := doc_categories.

(** [GET /items] *)
Definition get_doc_items (category_id' : option string) : list DocItem :=
  match category_id' with
  | Some c =>
      if PyStr.truthy c
      then filter (λ item, category_id item = c) doc_items
      else doc_items
  | None => doc_items
  end.

(** [GET /content/{doc_id}] *)
Definition get_doc_content (doc_id : string) : result DocContent :=
  match doc_content !! doc_id with
  | None =>
      Raise (HTTPException 404
               ("Document with ID " +:+ doc_id +:+ " not found"))
  | Some c => Ok c
  end.

(** The condition of the loop in [search_docs]:
    [query.lower() in item["title"].lower() or
     (item.get("summary") and query.lower() in item["summary"].lower())] *)
Definition matches (query : string) (item : DocItem) : bool :=
  PyStr.contains (PyStr.lower query) (PyStr.lower (item_title item)) ||
  match summary item with
  | Some s =>
      PyStr.truthy s && PyStr.contains (PyStr.lower query) (PyStr.lower s)
  | None => false
  end.

(** The loop of [search_docs] over a catalog: [results.append(item)] for
    each item that matches, in the order of the catalog. *)
Fixpoint search_in (items : list DocItem) (query : string)
  (results : list DocItem) : list DocItem :=
  match items with
  | [] => results
  | item :: rest =>
      search_in rest query
        (if matches query item then results ++ [item] else results)
  end.

(** [GET /search] *)
Definition search_docs (query : string) : list DocItem :=
  search_in doc_items query [].

End Docs.

(** ** Vocabulary of the statements *)

(** [sub] occurs in [s]: [s] is some text, then [sub], then some text. *)
Definition occurs (sub s : string) : Prop :=
  ∃ pre post, s = pre +:+ sub +:+ post.

(** [sub] occurs in [s] up to letter case: some stretch of [s] and [sub]
    have the same lower-case form. *)
Definition occurs_ignoring_case (sub s : string) : Prop :=
  ∃ pre mid post, s = pre +:+ mid +:+ post ∧ PyStr.lower mid = PyStr.lower sub.

(** Field [key] of a JSON object. *)
Definition field (key : string) (v : json) : option json :=
  match v with
  | JDict d => d !! key
  | _ => None
  end.

(** A source reference [{"title": ..., "url": ...}]. *)
Definition source_ref (title url : string) : json :=
  JDict (mkdict [("title", JStr title); ("url", JStr url)]).

(** A profile record as the data model has it: stored under its own
    username, with a mapping of preferences. *)
Definition profile_record (key : string) (p : dict) : Prop :=
  p !! "username" = Some (JStr key)
  ∧ ∃ prefs : dict, p !! "preferences" = Some (JDict prefs).

(** Every entry of the store is a profile record. *)
Definition store_ok (db : gmap string dict) : Prop :=
  ∀ key p, db !! key = Some p → profile_record key p.

(** [old] merged key by key with [upd]: the keys of [upd] are added or
    overwritten, the others keep their value. *)
Definition merged_into (old upd new : dict) : Prop :=
  (∀ k v, upd !! k = Some v → new !! k = Some v)
  ∧ (∀ k, upd !! k = None → new !! k = old !! k).

(** The partial update with no field provided. *)
Definition no_update : Users.UserProfileUpdate :=
  {| Users.upd_email := None;
     Users.upd_full_name := None;
     Users.upd_bio := None;
     Users.upd_avatar_url := None;
     Users.upd_preferences := None |}.

(** The four assignments of [update_user_profile], in the order of the
    source. *)
Definition assigned (pu : Users.UserProfileUpdate) (p : dict) : dict :=
  Users.assign_if_given "avatar_url" (Users.upd_avatar_url pu)
    (Users.assign_if_given "bio" (Users.upd_bio pu)
       (Users.assign_if_given "full_name" (Users.upd_full_name pu)
          (Users.assign_if_given "email" (Users.upd_email pu) p))).

(** The profile [update_user_profile] leaves in the store when it starts
    from [p]. *)
Definition updated (pu : Users.UserProfileUpdate) (p : dict) : dict :=
  match Users.upd_preferences pu with
  | None => assigned pu p
  | Some preferences =>
      snd (Users.update_preferences_of
             (Users.ensure_preferences (assigned pu p)) preferences)
  end.

(** A user and a store for the examples: the record of the spec's merge
    example, with preferences [{theme: "dark", notifications: true}]. *)
Definition ann : Users.User :=
  {| Users.username := "ann";
     Users.email := Some "ann@example.com";
     Users.full_name := None;
     Users.active := true |}.

Definition ann_db : gmap string dict :=
  <["ann" := mkdict [
      ("username", JStr "ann");
      ("email", JStr "ann@example.com");
      ("full_name", JNull);
      ("bio", JNull);
      ("avatar_url", JNull);
      ("preferences", JDict (mkdict [
         ("theme", JStr "dark");
         ("notifications", JBool true)]))]]> Users.fake_profiles_db.

Definition johndoe : Users.User :=
  {| Users.username := "johndoe";
     Users.email := None;
     Users.full_name := None;
     Users.active := true |}.

Definition study_reminder_on : Users.UserProfileUpdate :=
  {| Users.upd_email := None;
     Users.upd_full_name := None;
     Users.upd_bio := None;
     Users.upd_avatar_url := None;
     Users.upd_preferences := Some (mkdict [("study_reminder", JBool true)]) |}.

(** What [json.loads] gives on the frames of the examples below: an empty
    object, an empty array, [null]; any other text is malformed here. *)
Definition sample_loads (data : string) : result json :=
  if decide (data = "{}") then Ok (JDict ∅)
  else if decide (data = "[]") then Ok (JList [])
  else if decide (data = "null") then Ok JNull
  else Raise (JSONDecodeError "Expecting value: line 1 column 1 (char 0)").

(** A plan step [{"step_id": ..., "description": ..., "status": ...}]. *)
Definition plan_step (step_id description status : string) : json :=
  JDict (mkdict [("step_id", JStr step_id);
                 ("description", JStr description);
                 ("status", JStr status)]).

(** The search condition in the words of the spec: the query occurs, up to
    letter case, in the title, or the item has a summary and the query
    occurs in it. *)
Definition search_hit (query : string) (item : Docs.DocItem) : Prop :=
  occurs_ignoring_case query (Docs.item_title item)
  ∨ ∃ s, Docs.summary item = Some s ∧ occurs_ignoring_case query s.

(** A request to one of the four routes of [routers/users.py], with the
    identity the gate resolved for it. *)
Inductive request : Type :=
  | GetProfile (current_user : Users.User)
  | PutProfile (profile_update : Users.UserProfileUpdate)
      (current_user : Users.User)
  | GetPreferences (current_user : Users.User)
  | PutPreferences (preferences : dict) (current_user : Users.User).

(** The handler of a request: what it returns or raises, and the store it
    leaves. *)
Definition serve (r : request) (db : gmap string dict)
  : result json * gmap string dict :=
  match r with
  | GetProfile u =>
      let '(res, db') := Users.get_user_profile u db in
      (bind res (λ p, Ok (JDict p)), db')
  | PutProfile pu u =>
      let '(res, db') := Users.update_user_profile pu u db in
      (bind res (λ p, Ok (JDict p)), db')
  | GetPreferences u => Users.get_user_preferences u db
  | PutPreferences prefs u =>
      let '(res, db') := Users.update_user_preferences prefs u db in
      (bind res (λ p, Ok (JDict p)), db')
  end.

(** The store after a sequence of requests, served one after the other. *)
Definition serve_all (rs : list request) (db : gmap string dict)
  : gmap string dict :=
  foldl (λ db r, snd (serve r db)) db rs.

(** The record a writer starts from: the caller's entry, or the new record
    with the preferences [prefs] that the writer would create. *)
Definition record_before (u : Users.User) (prefs : dict)
  (db : gmap string dict) : dict :=
  default (Users.new_profile u prefs) (db !! Users.username u).

(** The preferences mapping of a record; empty without one. *)
Definition preferences_of (p : dict) : dict :=
  match p !! "preferences" with
  | Some (JDict d) => d
  | _ => ∅
  end.

(** The first item of the catalog. *)
Definition architecture_item : Docs.DocItem :=
  {| Docs.item_id := "architecture-overview";
     Docs.category_id := "architecture";
     Docs.item_title := "Architecture Overview";
     Docs.path := "/docs/ARCHITECTURE.md";
     Docs.summary := Some "Overview of the Studi system architecture" |}.

(** The keys of a response of the synthesis. *)
Definition response_keys : gset string :=
  {[ "response"; "sources"; "context" ]}.

(** * Properties *)

(** ** Strings *)

Section PyStrFacts.
Import PyStr.

Lemma app_nil_str (b : string) : "" +:+ b = b.
Proof. reflexivity. Qed.

Lemma app_cons_str (c : ascii) (a b : string) :
  String c a +:+ b = String c (a +:+ b).
Proof. reflexivity. Qed.

Lemma app_assoc_str (a b c : string) : (a +:+ b) +:+ c = a +:+ b +:+ c.
Proof.
  induction a as [|x a IH]; [done |].
  by rewrite !app_cons_str, IH.
Qed.

Lemma startswith_occurs sub s :
  startswith sub s = true ↔ ∃ post, s = sub +:+ post.
Proof.
  revert s. induction sub as [|a sub IH]; intros s; simpl.
  - split; [eauto | done].
  - destruct s as [|b s].
    + split; [done | intros [post H]; discriminate H].
    + rewrite andb_true_iff, bool_decide_eq_true, IH. split.
      * intros [-> [post ->]]. eauto.
      * intros [post H]. rewrite app_cons_str in H.
        injection H as -> ->. eauto.
Qed.

Lemma contains_occurs sub s : contains sub s = true ↔ occurs sub s.
Proof.
  unfold occurs. induction s as [|c s IH]; simpl.
  - rewrite orb_false_r, startswith_occurs. split.
    + intros [post H]. by exists "", post.
    + intros [[|x pre] [post H]]; [eauto | discriminate H].
  - rewrite orb_true_iff, startswith_occurs, IH. split.
    + intros [[post H] | (pre & post & ->)].
      * by exists "", post.
      * by exists (String c pre), post.
    + intros [[|x pre] [post H]].
      * left. eauto.
      * right. rewrite app_cons_str in H. injection H as _ ->. eauto.
Qed.


Lemma lower_app a b : lower (a +:+ b) = lower a +:+ lower b.
Proof.
  induction a as [|x a IH]; [done |].
  rewrite app_cons_str. simpl. by rewrite IH, app_cons_str.
Qed.

Lemma lower_app_inv s x y :
  lower s = x +:+ y → ∃ a b, s = a +:+ b ∧ lower a = x ∧ lower b = y.
Proof.
  revert s. induction x as [|c x IH]; intros s H.
  - by exists "", s.
  - destruct s as [|d s]; [discriminate H |].
    rewrite app_cons_str in H. simpl in H. injection H as Hc Hs.
    destruct (IH s Hs) as (a & b & -> & Ha & Hb).
    exists (String d a), b. simpl. by rewrite Hc, Ha.
Qed.

(** [sub.lower() in s.lower()] is containment up to letter case. *)
Lemma contains_lower sub s :
  contains (lower sub) (lower s) = true ↔ occurs_ignoring_case sub s.
Proof.
  rewrite contains_occurs. unfold occurs, occurs_ignoring_case. split.
  - intros (pre & post & H).
    apply lower_app_inv in H as (a & r & -> & _ & H).
    apply lower_app_inv in H as (m & b & -> & Hm & _).
    by exists a, m, b.
  - intros (pre & mid & post & -> & H).
    exists (lower pre), (lower post).
    by rewrite !lower_app, H.
Qed.

End PyStrFacts.

(** ** The query façade *)

Section AgentFacts.
Import Agents.

Lemma keyword_in_lower (kw q : string) :
  PyStr.lower kw = kw →
  PyStr.contains kw (PyStr.lower q) = true ↔ occurs_ignoring_case kw q.
Proof. intros H. rewrite <- contains_lower. by rewrite H. Qed.

Lemma keyword_not_in_lower (kw q : string) :
  PyStr.lower kw = kw →
  PyStr.contains kw (PyStr.lower q) = false ↔ ¬ occurs_ignoring_case kw q.
Proof.
  intros H. rewrite <- keyword_in_lower by done.
  by destruct (PyStr.contains kw (PyStr.lower q)).
Qed.

Lemma source_ref_title t u : field "title" (source_ref t u) = Some (JStr t).
Proof. reflexivity. Qed.

Lemma source_ref_title_inj t1 u1 t2 u2 :
  source_ref t1 u1 = source_ref t2 u2 → t1 = t2.
Proof.
  intros H. apply (f_equal (field "title")) in H.
  rewrite !source_ref_title in H. by injection H.
Qed.

(** C1. [mock_agent_response] on a query string is a function of the
    query alone (the context is not read) and picks its answer by the first
    keyword that occurs in the query up to letter case: "study guide" gives
    the topic "Machine Learning Fundamentals" and two source references;
    otherwise "assignment" gives two source references, none of them one of
    the study-guide references; otherwise the response text contains the
    query verbatim, the sources are the empty list and the query type is
    "general". A query with both keywords gets the study-guide answer. *)
Theorem mock_agent_response_first_match (q : string) (ctx : json) :
  (∀ ctx', mock_agent_response (JStr q) ctx' = mock_agent_response (JStr q) ctx)
  ∧ (occurs_ignoring_case "study guide" q →
     ∃ resp s1 s2,
       mock_agent_response (JStr q) ctx = Ok resp
       ∧ field "context" resp ≫= field "topic"
         = Some (JStr "Machine Learning Fundamentals")
       ∧ field "sources" resp = Some (JList [s1; s2])
       ∧ s1 = source_ref "Textbook Chapter 5"
                "https://example.com/textbook/chapter5"
       ∧ s2 = source_ref "Lecture Notes Week 3"
                "https://example.com/lectures/week3")
  ∧ (¬ occurs_ignoring_case "study guide" q →
     occurs_ignoring_case "assignment" q →
     ∃ resp a1 a2,
       mock_agent_response (JStr q) ctx = Ok resp
       ∧ field "sources" resp = Some (JList [a1; a2])
       ∧ a1 = source_ref "Assignment Guidelines"
                "https://example.com/assignments/guidelines"
       ∧ a2 = source_ref "Related Examples" "https://example.com/examples"
       ∧ (∀ a, a ∈ [a1; a2] →
            a ∉ [source_ref "Textbook Chapter 5"
                   "https://example.com/textbook/chapter5";
                 source_ref "Lecture Notes Week 3"
                   "https://example.com/lectures/week3"]))
  ∧ (¬ occurs_ignoring_case "study guide" q →
     ¬ occurs_ignoring_case "assignment" q →
     ∃ resp text,
       mock_agent_response (JStr q) ctx = Ok resp
       ∧ field "response" resp = Some (JStr text)
       ∧ occurs q text
       ∧ field "sources" resp = Some (JList [])
       ∧ field "context" resp ≫= field "query_type" = Some (JStr "general")).
Proof.
  split; [done |].
  unfold mock_agent_response. simpl.
  split; [| split].
  - intros H%keyword_in_lower; [| done]. rewrite H.
    eexists _, _, _. repeat split; reflexivity.
  - intros H1%keyword_not_in_lower H2%keyword_in_lower; [| done ..].
    rewrite H1, H2.
    eexists _, _, _. split; [reflexivity |]. split; [reflexivity |].
    split; [reflexivity |]. split; [reflexivity |].
    intros a Ha Hs.
    apply list_elem_of_In in Ha. apply list_elem_of_In in Hs.
    simpl in Ha, Hs.
    destruct Ha as [<- | [<- | []]], Hs as [Hs | [Hs | []]];
      apply source_ref_title_inj in Hs; discriminate Hs.
  - intros H1%keyword_not_in_lower H2%keyword_not_in_lower; [| done ..].
    rewrite H1, H2.
    eexists _, _. split; [reflexivity |]. split; [reflexivity |].
    split; [| split; reflexivity].
    by exists "I understand you're asking about: ",
              ". How can I help you with this topic?".
Qed.

Lemma mock_agent_response_first_match_witness :
  (∃ resp s1 s2,
     mock_agent_response (JStr "Write a Study Guide for my ASSIGNMENT") JNull
       = Ok resp
     ∧ field "context" resp ≫= field "topic"
       = Some (JStr "Machine Learning Fundamentals")
     ∧ field "sources" resp = Some (JList [s1; s2])
     ∧ s1 = source_ref "Textbook Chapter 5"
              "https://example.com/textbook/chapter5"
     ∧ s2 = source_ref "Lecture Notes Week 3"
              "https://example.com/lectures/week3")
  ∧ (∃ resp text,
       mock_agent_response (JStr "What is a monad?") JNull = Ok resp
       ∧ field "response" resp = Some (JStr text)
       ∧ occurs "What is a monad?" text
       ∧ field "sources" resp = Some (JList [])
       ∧ field "context" resp ≫= field "query_type" = Some (JStr "general")).
Proof.
  split.
  - apply (proj1 (proj2 (mock_agent_response_first_match
                           "Write a Study Guide for my ASSIGNMENT" JNull))).
    by apply keyword_in_lower.
  - apply (proj2 (proj2 (proj2 (mock_agent_response_first_match
                                  "What is a monad?" JNull))));
      by apply keyword_not_in_lower.
Defined.

Example mock_agent_response_assignment :
  mock_agent_response (JStr "Help with Assignment 3") JNull
  = Ok (JDict (mkdict [
      ("response", JStr "I'll help you with this assignment. Let's break it down step by step...");
      ("sources", JList [
         source_ref "Assignment Guidelines"
           "https://example.com/assignments/guidelines";
         source_ref "Related Examples" "https://example.com/examples"]);
      ("context", JDict (mkdict [
         ("assignment_type", JStr "Problem Set");
         ("due_date", JStr "2023-06-20T23:59:00Z")]))])).
Proof. reflexivity. Qed.

(** The typed route gives the same answer as the synthesis function. *)
Lemma query_agent_is_mock_agent_response (q : AgentQuery) :
  query_agent q = mock_agent_response (JStr (query q)) (opt_dict (context q)).
Proof. reflexivity. Qed.

Section Channel.
Variable json_loads : string → result json.



End Channel.




(** C8, as the code has it. For every query [create_plan] returns the
    same four steps, and a context with the same plan id and creation time
    that carries the text of the query; for every task id [get_task_status]
    reports ["in_progress"], progress [0.65] and no result, and carries the
    task id. The text of the query and the task id are all that the two
    results take from their input. *)
Theorem create_plan_and_task_status_echo_input
  (q : AgentQuery) (task_id : string) :
  field "steps" (create_plan q)
  = Some (JList [
      plan_step "1" "Analyze the query and identify key topics" "completed";
      plan_step "2" "Retrieve relevant information from knowledge base"
        "in_progress";
      plan_step "3" "Generate comprehensive response" "pending";
      plan_step "4" "Review and refine response for accuracy" "pending"])
  ∧ (∀ q', field "steps" (create_plan q') = field "steps" (create_plan q))
  ∧ field "context" (create_plan q)
    = Some (JDict (mkdict [("query", JStr (query q));
                           ("plan_id", JStr "plan-123456");
                           ("created_at", JStr "2023-06-15T10:30:00Z")]))
  ∧ (∀ q', create_plan q' = create_plan q ↔ query q' = query q)
  ∧ field "task_id" (get_task_status task_id) = Some (JStr task_id)
  ∧ field "status" (get_task_status task_id) = Some (JStr "in_progress")
  ∧ field "progress" (get_task_status task_id) = Some (JFloat 0.65%float)
  ∧ field "result" (get_task_status task_id) = Some JNull
  ∧ (∀ t', field "status" (get_task_status t')
             = field "status" (get_task_status task_id)
           ∧ field "progress" (get_task_status t')
             = field "progress" (get_task_status task_id)
           ∧ field "result" (get_task_status t')
             = field "result" (get_task_status task_id))
  ∧ (∀ t', get_task_status t' = get_task_status task_id ↔ t' = task_id).
Proof.
  split; [reflexivity |]. split; [reflexivity |]. split; [reflexivity |].
  split.
  { intros q'. split.
    - intros H.
      apply (f_equal (λ v, field "context" v ≫= field "query")) in H.
      change (Some (JStr (query q')) = Some (JStr (query q))) in H.
      by injection H.
    - intros H. unfold create_plan. by rewrite H. }
  do 4 (split; [reflexivity |]).
  split; [by intros t' |].
  intros t'. split.
  - intros H. apply (f_equal (field "task_id")) in H.
    change (Some (JStr t') = Some (JStr task_id)) in H. by injection H.
  - by intros ->.
Qed.

(** C8 as stated fails: the plan of one query is not the plan of another,
    and the status of one task id is not the status of another. *)
Lemma create_plan_and_task_status_counterexample :
  create_plan {| query := "a"; context := None |}
  ≠ create_plan {| query := "b"; context := None |}
  ∧ get_task_status "t1" ≠ get_task_status "t2".
Proof.
  split; intros H.
  - apply (f_equal (λ v, field "context" v ≫= field "query")) in H.
    vm_compute in H. discriminate H.
  - apply (f_equal (field "task_id")) in H.
    vm_compute in H. discriminate H.
Qed.

End AgentFacts.

(** ** The profile store *)

Section UserFacts.
Import Users.
Implicit Types (db : gmap string dict) (p : dict) (u : User).

Lemma new_profile_lookups u (prefs : dict) :
  new_profile u prefs !! "username" = Some (JStr (username u))
  ∧ new_profile u prefs !! "email" = Some (opt_str (email u))
  ∧ new_profile u prefs !! "full_name" = Some (opt_str (full_name u))
  ∧ new_profile u prefs !! "bio" = Some JNull
  ∧ new_profile u prefs !! "avatar_url" = Some JNull
  ∧ new_profile u prefs !! "preferences" = Some (JDict prefs).
Proof. repeat split; reflexivity. Qed.

Lemma new_profile_record u (prefs : dict) :
  profile_record (username u) (new_profile u prefs).
Proof. split; [reflexivity | by exists prefs]. Qed.


Lemma ensure_profile_present u (prefs : dict) db p :
  db !! username u = Some p → ensure_profile u prefs db = db.
Proof. intros H. unfold ensure_profile. by rewrite H. Qed.

Lemma ensure_profile_other u (prefs : dict) db (other : string) :
  other ≠ username u → ensure_profile u prefs db !! other = db !! other.
Proof.
  intros H. unfold ensure_profile.
  destruct (db !! username u); [done |]. by rewrite lookup_insert_ne.
Qed.

(** After the creation step the caller has an entry: the one it had, or
    the new one. *)
Lemma ensure_profile_lookup u (prefs : dict) db :
  ∃ p, ensure_profile u prefs db !! username u = Some p
       ∧ p = default (new_profile u prefs) (db !! username u).
Proof.
  unfold ensure_profile. destruct (db !! username u) as [p |] eqn:E.
  - by exists p.
  - exists (new_profile u prefs). by rewrite lookup_insert_eq.
Qed.

Lemma ensure_profile_ok u (prefs : dict) db :
  store_ok db → store_ok (ensure_profile u prefs db).
Proof.
  intros Hok key p. unfold ensure_profile.
  destruct (db !! username u) eqn:E; [apply Hok |].
  destruct (decide (key = username u)) as [-> | Hne].
  - rewrite lookup_insert_eq. intros [= <-]. apply new_profile_record.
  - rewrite lookup_insert_ne by done. apply Hok.
Qed.

Lemma assign_if_given_other (key k : string) (value : option string) p :
  k ≠ key → assign_if_given key value p !! k = p !! k.
Proof.
  intros H. destruct value; simpl; [| done]. by rewrite lookup_insert_ne.
Qed.

Lemma assign_if_given_same (key : string) (value : option string) p :
  assign_if_given key value p !! key
  = match value with Some v => Some (JStr v) | None => p !! key end.
Proof. destruct value; simpl; [| done]. by rewrite lookup_insert_eq. Qed.

Lemma assigned_lookups (pu : UserProfileUpdate) p :
  assigned pu p !! "email"
    = match upd_email pu with Some v => Some (JStr v) | None => p !! "email" end
  ∧ assigned pu p !! "full_name"
    = match upd_full_name pu with
      | Some v => Some (JStr v) | None => p !! "full_name" end
  ∧ assigned pu p !! "bio"
    = match upd_bio pu with Some v => Some (JStr v) | None => p !! "bio" end
  ∧ assigned pu p !! "avatar_url"
    = match upd_avatar_url pu with
      | Some v => Some (JStr v) | None => p !! "avatar_url" end.
Proof.
  unfold assigned. repeat split;
    repeat first [ rewrite assign_if_given_same; reflexivity
                 | rewrite assign_if_given_same
                 | rewrite assign_if_given_other by done ];
    reflexivity.
Qed.

Lemma assigned_other (pu : UserProfileUpdate) p (k : string) :
  k ≠ "email" → k ≠ "full_name" → k ≠ "bio" → k ≠ "avatar_url" →
  assigned pu p !! k = p !! k.
Proof. intros. unfold assigned. by rewrite !assign_if_given_other. Qed.

Lemma ensure_preferences_other p (k : string) :
  k ≠ "preferences" → ensure_preferences p !! k = p !! k.
Proof.
  intros H. unfold ensure_preferences.
  destruct (p !! "preferences"); [done |]. by rewrite lookup_insert_ne.
Qed.

Lemma ensure_preferences_present p (v : json) :
  p !! "preferences" = Some v → ensure_preferences p = p.
Proof. intros H. unfold ensure_preferences. by rewrite H. Qed.

Lemma update_preferences_of_other p (preferences : dict) (k : string) :
  k ≠ "preferences" →
  snd (update_preferences_of p preferences) !! k = p !! k.
Proof.
  intros H. unfold update_preferences_of.
  destruct (p !! "preferences") as [[] |]; simpl; try done.
  by rewrite lookup_insert_ne.
Qed.

Lemma update_preferences_of_dict p (preferences old : dict) :
  p !! "preferences" = Some (JDict old) →
  update_preferences_of p preferences
  = (Ok (preferences ∪ old),
     <["preferences" := JDict (preferences ∪ old)]> p).
Proof. intros H. unfold update_preferences_of. by rewrite H. Qed.

Lemma merged_into_union (old upd : dict) : merged_into old upd (upd ∪ old).
Proof.
  split.
  - intros k v H. by apply lookup_union_Some_l.
  - intros k H. by apply lookup_union_r.
Qed.

Lemma insert_ensure_profile u (prefs : dict) db (x : dict) :
  <[username u := x]> (ensure_profile u prefs db) = <[username u := x]> db.
Proof.
  unfold ensure_profile. destruct (db !! username u); [done |].
  by rewrite insert_insert_eq.
Qed.

(** [update_user_profile] as one step on the caller's entry. *)
Lemma update_user_profile_store (pu : UserProfileUpdate) u db :
  snd (update_user_profile pu u db)
  = <[username u :=
        updated pu (default (new_profile u default_preferences)
                      (db !! username u))]> db.
Proof.
  unfold update_user_profile, db_getitem, updated.
  destruct (ensure_profile_lookup u default_preferences db) as (p & -> & ->).
  fold (assigned pu (default (new_profile u default_preferences)
                       (db !! username u))).
  destruct (upd_preferences pu) as [preferences |]; simpl.
  - destruct (update_preferences_of _ preferences) as [[r | e] p2]; simpl;
      apply insert_ensure_profile.
  - apply insert_ensure_profile.
Qed.

Lemma update_user_preferences_store (preferences : dict) u db :
  snd (update_user_preferences preferences u db)
  = <[username u :=
        snd (update_preferences_of
               (ensure_preferences
                  (default (new_profile u ∅) (db !! username u)))
               preferences)]> db.
Proof.
  unfold update_user_preferences, db_getitem.
  destruct (ensure_profile_lookup u ∅ db) as (p & -> & ->).
  destruct (update_preferences_of _ preferences) as [r p2]; simpl.
  apply insert_ensure_profile.
Qed.

Lemma updated_other (pu : UserProfileUpdate) p (k : string) :
  k ≠ "preferences" → updated pu p !! k = assigned pu p !! k.
Proof.
  intros H. unfold updated. destruct (upd_preferences pu); [| done].
  by rewrite update_preferences_of_other, ensure_preferences_other.
Qed.

Lemma updated_username (pu : UserProfileUpdate) p :
  updated pu p !! "username" = p !! "username".
Proof.
  rewrite updated_other by done. by apply assigned_other.
Qed.

Lemma updated_preferences (pu : UserProfileUpdate) p (old : dict) :
  p !! "preferences" = Some (JDict old) →
  updated pu p !! "preferences"
  = Some (JDict (match upd_preferences pu with
                 | Some upd => upd ∪ old
                 | None => old
                 end)).
Proof.
  intros H.
  assert (assigned pu p !! "preferences" = Some (JDict old)) as Ha.
  { by rewrite assigned_other. }
  unfold updated. destruct (upd_preferences pu) as [upd |]; [| done].
  rewrite (ensure_preferences_present _ _ Ha).
  rewrite (update_preferences_of_dict _ _ _ Ha). simpl.
  by rewrite lookup_insert_eq.
Qed.

(** With a mapping of preferences in the caller's record,
    [update_user_profile] does not raise and returns what it stored. *)
Lemma update_user_profile_ok (pu : UserProfileUpdate) u db p (old : dict) :
  db !! username u = Some p →
  p !! "preferences" = Some (JDict old) →
  update_user_profile pu u db
  = (Ok (updated pu p), <[username u := updated pu p]> db).
Proof.
  intros Hp Hold.
  assert (assigned pu p !! "preferences" = Some (JDict old)) as Ha.
  { by rewrite assigned_other. }
  unfold update_user_profile, db_getitem, updated.
  rewrite (ensure_profile_present _ _ _ _ Hp), Hp.
  fold (assigned pu p).
  destruct (upd_preferences pu) as [upd |]; [| done].
  rewrite (ensure_preferences_present _ _ Ha).
  by rewrite (update_preferences_of_dict _ _ _ Ha).
Qed.

(** *** The store keeps profile records *)

Lemma fake_profiles_db_absent (key : string) :
  key ≠ "johndoe" → fake_profiles_db !! key = None.
Proof. intros H. unfold fake_profiles_db. by rewrite lookup_singleton_ne. Qed.

Lemma fake_profiles_db_ok : store_ok fake_profiles_db.
Proof.
  intros key p H. unfold fake_profiles_db in H.
  apply lookup_singleton_Some in H as [<- <-].
  split; [reflexivity | eexists; reflexivity].
Qed.

Lemma default_record_ok u (prefs : dict) db :
  store_ok db →
  profile_record (username u) (default (new_profile u prefs) (db !! username u)).
Proof.
  intros Hok. destruct (db !! username u) as [p |] eqn:E; simpl.
  - by apply Hok.
  - apply new_profile_record.
Qed.

Lemma insert_ok db (key : string) p :
  store_ok db → profile_record key p → store_ok (<[key := p]> db).
Proof.
  intros Hok Hp k q. destruct (decide (k = key)) as [-> | Hne].
  - rewrite lookup_insert_eq. by intros [= <-].
  - rewrite lookup_insert_ne by done. apply Hok.
Qed.

Lemma get_user_profile_keeps_ok u db :
  store_ok db → store_ok (snd (get_user_profile u db)).
Proof. apply ensure_profile_ok. Qed.

Lemma update_user_profile_keeps_ok (pu : UserProfileUpdate) u db :
  store_ok db → store_ok (snd (update_user_profile pu u db)).
Proof.
  intros Hok. rewrite update_user_profile_store.
  apply insert_ok; [done |].
  destruct (default_record_ok u default_preferences db Hok) as [Hu [old Hold]].
  split.
  - by rewrite updated_username.
  - rewrite (updated_preferences _ _ _ Hold). by eexists.
Qed.

Lemma update_user_preferences_keeps_ok (preferences : dict) u db :
  store_ok db → store_ok (snd (update_user_preferences preferences u db)).
Proof.
  intros Hok. rewrite update_user_preferences_store.
  apply insert_ok; [done |].
  destruct (default_record_ok u ∅ db Hok) as [Hu [old Hold]].
  rewrite (ensure_preferences_present _ _ Hold).
  rewrite (update_preferences_of_dict _ _ _ Hold). simpl. split.
  - by rewrite lookup_insert_ne.
  - rewrite lookup_insert_eq. by eexists.
Qed.

(** *** The handlers *)

Example default_preferences_content :
  default_preferences !! "theme" = Some (JStr "light")
  ∧ default_preferences !! "notifications" = Some (JBool true)
  ∧ default_preferences !! "study_reminder" = Some (JBool false)
  ∧ size default_preferences = 3.
Proof. repeat split; reflexivity. Qed.







(** C4. On an existing record with a mapping of preferences,
    [update_user_profile] does not raise, stores and returns the updated
    record: each provided field is overwritten, each absent one kept, and
    provided preferences are merged key by key into the existing ones. *)
Theorem update_user_profile_merges (pu : UserProfileUpdate) u db p (old : dict) :
  db !! username u = Some p →
  p !! "preferences" = Some (JDict old) →
  ∃ p' (new : dict),
    update_user_profile pu u db = (Ok p', <[username u := p']> db)
    ∧ p' !! "email"
      = match upd_email pu with
        | Some v => Some (JStr v) | None => p !! "email" end
    ∧ p' !! "full_name"
      = match upd_full_name pu with
        | Some v => Some (JStr v) | None => p !! "full_name" end
    ∧ p' !! "bio"
      = match upd_bio pu with
        | Some v => Some (JStr v) | None => p !! "bio" end
    ∧ p' !! "avatar_url"
      = match upd_avatar_url pu with
        | Some v => Some (JStr v) | None => p !! "avatar_url" end
    ∧ p' !! "username" = p !! "username"
    ∧ p' !! "preferences" = Some (JDict new)
    ∧ match upd_preferences pu with
      | Some upd => merged_into old upd new
      | None => new = old
      end.
Proof.
  intros Hp Hold.
  exists (updated pu p),
    (match upd_preferences pu with Some upd => upd ∪ old | None => old end).
  split; [by apply (update_user_profile_ok pu u db p old) |].
  destruct (assigned_lookups pu p) as (He & Hf & Hb & Ha).
  rewrite !updated_other by done.
  do 4 (split; [done |]).
  split; [by apply assigned_other |].
  split; [by apply updated_preferences |].
  destruct (upd_preferences pu); [apply merged_into_union | done].
Qed.

Lemma update_user_profile_merges_witness :
  ann_db !! username ann
  = Some (mkdict [("username", JStr "ann");
                  ("email", JStr "ann@example.com");
                  ("full_name", JNull); ("bio", JNull); ("avatar_url", JNull);
                  ("preferences", JDict (mkdict [
                     ("theme", JStr "dark");
                     ("notifications", JBool true)]))])
  ∧ ∃ p' (new : dict),
      update_user_profile study_reminder_on ann ann_db
      = (Ok p', <[username ann := p']> ann_db)
      ∧ p' !! "email" = Some (JStr "ann@example.com")
      ∧ p' !! "full_name" = Some JNull
      ∧ p' !! "bio" = Some JNull
      ∧ p' !! "avatar_url" = Some JNull
      ∧ p' !! "username" = Some (JStr "ann")
      ∧ p' !! "preferences" = Some (JDict new)
      ∧ merged_into
          (mkdict [("theme", JStr "dark"); ("notifications", JBool true)])
          (mkdict [("study_reminder", JBool true)]) new.
Proof.
  split; [reflexivity |].
  exact (update_user_profile_merges study_reminder_on ann ann_db _ _
           eq_refl eq_refl).
Defined.

(** The merge example of the spec, evaluated. *)
Example update_user_profile_merge_example :
  (fst (update_user_profile study_reminder_on ann ann_db))
  = Ok (mkdict [("username", JStr "ann");
                ("email", JStr "ann@example.com");
                ("full_name", JNull); ("bio", JNull); ("avatar_url", JNull);
                ("preferences", JDict (mkdict [
                   ("theme", JStr "dark");
                   ("notifications", JBool true);
                   ("study_reminder", JBool true)]))]).
Proof. vm_compute. reflexivity. Qed.

(** C9. [update_user_profile] and [update_user_preferences] leave the
    entry of every other username as it was, also when they raise; the
    caller's record keeps its [username], and a record they create carries
    the caller's username. *)
Theorem updates_touch_only_caller
  (pu : UserProfileUpdate) (preferences : dict) u db :
  (∀ other : string, other ≠ username u →
     snd (update_user_profile pu u db) !! other = db !! other
     ∧ snd (update_user_preferences preferences u db) !! other = db !! other)
  ∧ ∃ p1 p2,
      snd (update_user_profile pu u db) !! username u = Some p1
      ∧ snd (update_user_preferences preferences u db) !! username u = Some p2
      ∧ match db !! username u with
        | Some p =>
            p1 !! "username" = p !! "username"
            ∧ p2 !! "username" = p !! "username"
        | None =>
            p1 !! "username" = Some (JStr (username u))
            ∧ p2 !! "username" = Some (JStr (username u))
        end.
Proof.
  rewrite update_user_profile_store, update_user_preferences_store. split.
  - intros other H. by rewrite !lookup_insert_ne.
  - rewrite !lookup_insert_eq. eexists _, _.
    split; [reflexivity |]. split; [reflexivity |].
    rewrite updated_username.
    rewrite update_preferences_of_other, ensure_preferences_other by done.
    by destruct (db !! username u).
Qed.

(** C10. An update with no field provided returns the existing record and
    leaves the store as it was. Whatever the update, a field among email,
    full name, bio and avatar reference that holds a value is not back to
    null afterwards. *)
Theorem update_user_profile_no_update u db p :
  db !! username u = Some p →
  update_user_profile no_update u db = (Ok p, db)
  ∧ ∀ (pu : UserProfileUpdate) (key : string) (v : json),
      key ∈ ["email"; "full_name"; "bio"; "avatar_url"] →
      p !! key = Some v → v ≠ JNull →
      ∃ p' v', snd (update_user_profile pu u db) !! username u = Some p'
               ∧ p' !! key = Some v' ∧ v' ≠ JNull.
Proof.
  intros Hp. split.
  - unfold update_user_profile, db_getitem.
    rewrite (ensure_profile_present _ _ _ _ Hp), Hp. simpl.
    by rewrite (insert_id _ _ _ Hp).
  - intros pu key v Hkey Hv Hnull.
    rewrite update_user_profile_store, Hp, lookup_insert_eq. simpl.
    destruct (assigned_lookups pu p) as (He & Hf & Hb & Ha).
    eexists.
    apply list_elem_of_In in Hkey. simpl in Hkey.
    destruct Hkey as [<- | [<- | [<- | [<- | []]]]];
      rewrite updated_other by done.
    + rewrite He. destruct (upd_email pu); eauto.
    + rewrite Hf. destruct (upd_full_name pu); eauto.
    + rewrite Hb. destruct (upd_bio pu); eauto.
    + rewrite Ha. destruct (upd_avatar_url pu); eauto.
Qed.

Lemma update_user_profile_no_update_witness :
  update_user_profile no_update ann ann_db
  = (Ok (mkdict [("username", JStr "ann");
                 ("email", JStr "ann@example.com");
                 ("full_name", JNull); ("bio", JNull); ("avatar_url", JNull);
                 ("preferences", JDict (mkdict [
                    ("theme", JStr "dark");
                    ("notifications", JBool true)]))]), ann_db)
  ∧ ∃ p' v',
      snd (update_user_profile study_reminder_on ann ann_db) !! username ann
      = Some p'
      ∧ p' !! "email" = Some v' ∧ v' ≠ JNull.
Proof.
  pose proof (update_user_profile_no_update ann ann_db _ eq_refl) as [H1 H2].
  split; [exact H1 |].
  apply (H2 study_reminder_on "email" (JStr "ann@example.com")).
  - apply list_elem_of_here.
  - reflexivity.
  - discriminate.
Defined.

End UserFacts.

(** ** The document catalog *)

Section DocFacts.
Import Docs.

Lemma occurs_ignoring_case_empty (query : string) :
  occurs_ignoring_case query "" → query = "".
Proof.
  intros (pre & mid & post & H & Hmid).
  destruct pre; [| discriminate H]. rewrite app_nil_str in H.
  destruct mid; [| discriminate H].
  destruct query; [done | discriminate Hmid].
Qed.

Lemma truthy_false (s : string) : PyStr.truthy s = false → s = "".
Proof. by destruct s. Qed.

(** The condition of the loop is the search condition of the spec: an
    empty summary is skipped like an absent one, and then only the empty
    query could have matched it, which every title matches. *)
Lemma matches_search_hit (query : string) (item : DocItem) :
  matches query item = true ↔ search_hit query item.
Proof.
  unfold matches, search_hit. rewrite orb_true_iff, contains_lower. split.
  - intros [H | H]; [by left | right].
    destruct (summary item) as [s |]; [| discriminate H].
    apply andb_true_iff in H as [_ H]. apply contains_lower in H. eauto.
  - intros [H | (s & -> & H)]; [by left |].
    destruct (PyStr.truthy s) eqn:E.
    + right. by apply contains_lower.
    + left. apply truthy_false in E as ->.
      apply occurs_ignoring_case_empty in H as ->.
      exists "", "", (item_title item). by rewrite !app_nil_str.
Qed.

(** The loop appends the matching items to [results], in catalog order. *)
Lemma search_in_filter (items : list DocItem) (query : string)
  (results : list DocItem) :
  search_in items query results
  = results ++ filter (λ item, matches query item = true) items.
Proof.
  revert results. induction items as [|item items IH]; intros results; simpl.
  - by rewrite filter_nil, app_nil_r.
  - rewrite IH. destruct (matches query item) eqn:E.
    + rewrite filter_cons_True by done. by rewrite <- app_assoc.
    + rewrite filter_cons_False; [done |]. by rewrite E.
Qed.





Example search_docs_assignment : search_docs "assignment" = [].
Proof. reflexivity. Qed.

Example search_docs_guide :
  item_id <$> search_docs "GUIDE"
  = ["getting-started"; "study-guide-creation"; "deployment-guide"].
Proof. reflexivity. Qed.

(** C5. [get_doc_content] raises the 404 error exactly for the ids without
    an entry in [doc_content] and otherwise returns the stored entry as it
    is. Every id of [doc_content] is the id of a catalog item, and the
    catalog has items without content, for which the handler raises. *)
Theorem get_doc_content_not_found (doc_id : string) :
  (get_doc_content doc_id
   = Raise (HTTPException 404
              ("Document with ID " +:+ doc_id +:+ " not found"))
   ↔ doc_content !! doc_id = None)
  ∧ (∀ c, doc_content !! doc_id = Some c ↔ get_doc_content doc_id = Ok c)
  ∧ (∀ id c, doc_content !! id = Some c →
       c = architecture_overview ∧ id ∈ item_id <$> doc_items)
  ∧ (∀ item, item ∈ doc_items →
       item_id item ≠ "architecture-overview" →
       get_doc_content (item_id item)
       = Raise (HTTPException 404
                  ("Document with ID " +:+ item_id item +:+ " not found")))
  ∧ (∃ item, item ∈ doc_items ∧ doc_content !! item_id item = None)
  ∧ get_doc_content "architecture-overview" = Ok architecture_overview.
Proof.
  unfold get_doc_content. split; [| split; [| split; [| split; [| split]]]].
  - destruct (doc_content !! doc_id); split; done.
  - intros c. destruct (doc_content !! doc_id); split; congruence.
  - intros id c H. unfold doc_content in H.
    apply lookup_singleton_Some in H as [<- <-].
    split; [done |]. apply list_elem_of_here.
  - intros item _ H. unfold doc_content.
    by rewrite lookup_singleton_ne.
  - exists {| item_id := "agent-architecture";
              category_id := "architecture";
              item_title := "Agent Architecture";
              path := "/docs/AGENT_ARCHITECTURE.md";
              summary := Some "Details of the multi-agent AI system" |}.
    split; [| reflexivity].
    apply list_elem_of_further, list_elem_of_here.
  - reflexivity.
Qed.

End DocFacts.

(** ** More on the profile store *)

Section StoreFacts.
Import Users.
Implicit Types (db : gmap string dict) (p : dict) (u : User).

Lemma record_before_ok u (prefs : dict) db :
  store_ok db → profile_record (username u) (record_before u prefs db).
Proof. apply default_record_ok. Qed.

Lemma record_before_preferences u (prefs : dict) db :
  store_ok db →
  record_before u prefs db !! "preferences"
  = Some (JDict (preferences_of (record_before u prefs db))).
Proof.
  intros Hok. destruct (record_before_ok u prefs db Hok) as [_ [old H]].
  unfold preferences_of. by rewrite H.
Qed.

Lemma record_before_absent u (prefs : dict) db :
  db !! username u = None →
  record_before u prefs db = new_profile u prefs
  ∧ preferences_of (record_before u prefs db) = prefs.
Proof. intros H. unfold record_before. rewrite H. by split. Qed.

Lemma record_before_present u (prefs : dict) db p :
  db !! username u = Some p → record_before u prefs db = p.
Proof. intros H. unfold record_before. by rewrite H. Qed.

(** [update_user_profile] on a store of profile records, in one equation. *)
Lemma update_user_profile_eq (pu : UserProfileUpdate) u db :
  store_ok db →
  update_user_profile pu u db
  = (Ok (updated pu (record_before u default_preferences db)),
     <[username u := updated pu (record_before u default_preferences db)]> db).
Proof.
  intros Hok.
  pose proof (record_before_preferences u default_preferences db Hok) as Hold.
  revert Hold. generalize (preferences_of (record_before u default_preferences db)).
  unfold record_before. intros old Hold.
  assert (assigned pu (default (new_profile u default_preferences)
                         (db !! username u)) !! "preferences"
          = Some (JDict old)) as Ha.
  { by rewrite assigned_other. }
  unfold update_user_profile, db_getitem, updated.
  destruct (ensure_profile_lookup u default_preferences db) as (p & -> & ->).
  fold (assigned pu (default (new_profile u default_preferences)
                       (db !! username u))).
  destruct (upd_preferences pu) as [upd |].
  - rewrite (ensure_preferences_present _ _ Ha).
    rewrite (update_preferences_of_dict _ _ _ Ha). simpl.
    by rewrite insert_ensure_profile.
  - by rewrite insert_ensure_profile.
Qed.

(** [update_user_preferences] on a store of profile records, in one
    equation. *)
Lemma update_user_preferences_eq (preferences : dict) u db :
  store_ok db →
  update_user_preferences preferences u db
  = (Ok (preferences ∪ preferences_of (record_before u ∅ db)),
     <[username u :=
         <["preferences" :=
             JDict (preferences ∪ preferences_of (record_before u ∅ db))]>
           (record_before u ∅ db)]> db).
Proof.
  intros Hok.
  pose proof (record_before_preferences u ∅ db Hok) as Hold.
  revert Hold. generalize (preferences_of (record_before u ∅ db)).
  unfold record_before. intros old Hold.
  unfold update_user_preferences, db_getitem.
  destruct (ensure_profile_lookup u ∅ db) as (p & -> & ->).
  rewrite (ensure_preferences_present _ _ Hold).
  rewrite (update_preferences_of_dict _ _ _ Hold).
  by rewrite insert_ensure_profile.
Qed.

Lemma get_user_preferences_present u db p (prefs : json) :
  db !! username u = Some p →
  p !! "preferences" = Some prefs →
  get_user_preferences u db = (Ok prefs, db).
Proof. intros H Hp. unfold get_user_preferences. by rewrite H, Hp. Qed.

Lemma get_user_profile_present u db p :
  db !! username u = Some p → get_user_profile u db = (Ok p, db).
Proof.
  intros H. unfold get_user_profile, db_getitem.
  by rewrite (ensure_profile_present _ _ _ _ H), H.
Qed.

(** The lookups of [updated], key by key. *)
Lemma updated_lookup (pu : UserProfileUpdate) p (old : dict) (i : string) :
  p !! "preferences" = Some (JDict old) →
  updated pu p !! i
  = if decide (i = "preferences") then
      Some (JDict (match upd_preferences pu with
                   | Some upd => upd ∪ old
                   | None => old
                   end))
    else if decide (i = "email") then
      match upd_email pu with Some v => Some (JStr v) | None => p !! i end
    else if decide (i = "full_name") then
      match upd_full_name pu with Some v => Some (JStr v) | None => p !! i end
    else if decide (i = "bio") then
      match upd_bio pu with Some v => Some (JStr v) | None => p !! i end
    else if decide (i = "avatar_url") then
      match upd_avatar_url pu with Some v => Some (JStr v) | None => p !! i end
    else p !! i.
Proof.
  intros Hold. destruct (assigned_lookups pu p) as (He & Hf & Hb & Ha).
  repeat case_decide; subst.
  - by apply updated_preferences.
  - by rewrite updated_other.
  - by rewrite updated_other.
  - by rewrite updated_other.
  - by rewrite updated_other.
  - rewrite updated_other by done. by apply assigned_other.
Qed.

Lemma updated_idempotent (pu : UserProfileUpdate) p (old : dict) :
  p !! "preferences" = Some (JDict old) →
  updated pu (updated pu p) = updated pu p.
Proof.
  intros Hold. apply map_eq. intros i.
  pose proof (updated_preferences pu p old Hold) as Hnew.
  rewrite (updated_lookup pu (updated pu p) _ i Hnew).
  rewrite !(updated_lookup pu p old _ Hold).
  repeat case_decide; subst; try done.
  - destruct (upd_preferences pu) as [upd |]; [| done].
    by rewrite (assoc_L (∪)), (idemp_L (∪)).
  - by destruct (upd_email pu).
  - by destruct (upd_full_name pu).
  - by destruct (upd_bio pu).
  - by destruct (upd_avatar_url pu).
Qed.

End StoreFacts.

Section StoreProperties.
Import Users.
Implicit Types (db : gmap string dict) (p : dict) (u : User).

Lemma serve_keeps_ok (r : request) db : store_ok db → store_ok (snd (serve r db)).
Proof.
  intros Hok. destruct r as [u | pu u | u | prefs u]; simpl.
  - apply (get_user_profile_keeps_ok u db Hok).
  - pose proof (update_user_profile_keeps_ok pu u db Hok) as H.
    by destruct (update_user_profile pu u db).
  - unfold get_user_preferences. by destruct (db !! username u).
  - pose proof (update_user_preferences_keeps_ok prefs u db Hok) as H.
    by destruct (update_user_preferences prefs u db).
Qed.

Lemma serve_all_keeps_ok (rs : list request) db :
  store_ok db → store_ok (serve_all rs db).
Proof.
  revert db. induction rs as [|r rs IH]; intros db Hok; [done |].
  apply IH. by apply serve_keeps_ok.
Qed.

Lemma serve_ok (r : request) db : store_ok db → ∃ v, fst (serve r db) = Ok v.
Proof.
  intros Hok. destruct r as [u | pu u | u | prefs u]; simpl.
  - unfold get_user_profile, db_getitem.
    destruct (ensure_profile_lookup u default_preferences db) as (p & -> & _).
    by eexists.
  - rewrite (update_user_profile_eq pu u db Hok). by eexists.
  - unfold get_user_preferences. destruct (db !! username u); by eexists.
  - rewrite (update_user_preferences_eq prefs u db Hok). by eexists.
Qed.

(** X1. Whatever requests the four profile routes have served since the
    process started, every entry of the store is a profile record (stored
    under its own username, with a mapping of preferences), and the next
    request does not raise. *)
Theorem profile_routes_never_raise (rs : list request) (r : request) :
  store_ok (serve_all rs fake_profiles_db)
  ∧ ∃ v, fst (serve r (serve_all rs fake_profiles_db)) = Ok v.
Proof.
  assert (store_ok (serve_all rs fake_profiles_db)) as Hok.
  { apply serve_all_keeps_ok, fake_profiles_db_ok. }
  split; [done | by apply serve_ok].
Qed.

(** X2. On a store of profile records [update_user_preferences] returns the
    caller's preferences merged key by key with the given ones, starting from
    the empty mapping when it creates the record; the stored record has these
    preferences and no other key of it is changed. *)
Theorem update_user_preferences_merges (preferences : dict) u db :
  store_ok db →
  ∃ (merged : dict) p',
    update_user_preferences preferences u db
    = (Ok merged, <[username u := p']> db)
    ∧ merged_into (preferences_of (record_before u ∅ db)) preferences merged
    ∧ p' !! "preferences" = Some (JDict merged)
    ∧ (∀ i : string, i ≠ "preferences" →
         p' !! i = record_before u ∅ db !! i)
    ∧ (db !! username u = None →
       merged = preferences ∧ record_before u ∅ db = new_profile u ∅).
Proof.
  intros Hok. eexists _, _.
  split; [by apply update_user_preferences_eq |].
  split; [apply merged_into_union |].
  split; [by rewrite lookup_insert_eq |].
  split; [intros i Hi; by rewrite lookup_insert_ne |].
  intros H. destruct (record_before_absent u ∅ db H) as [-> _].
  split; [| done]. apply (right_id_L ∅ (∪)).
Qed.

Lemma update_user_preferences_merges_witness :
  store_ok ann_db
  ∧ ∃ (merged : dict) p',
      update_user_preferences (mkdict [("theme", JStr "light")]) ann ann_db
      = (Ok merged, <[username ann := p']> ann_db)
      ∧ merged_into (preferences_of (record_before ann ∅ ann_db))
          (mkdict [("theme", JStr "light")]) merged
      ∧ p' !! "preferences" = Some (JDict merged)
      ∧ (∀ i : string, i ≠ "preferences" →
           p' !! i = record_before ann ∅ ann_db !! i)
      ∧ (ann_db !! username ann = None →
         merged = mkdict [("theme", JStr "light")]
         ∧ record_before ann ∅ ann_db = new_profile ann ∅).
Proof.
  assert (store_ok ann_db) as Hok.
  { apply insert_ok; [apply fake_profiles_db_ok |].
    split; [reflexivity | eexists; reflexivity]. }
  split; [exact Hok |].
  exact (update_user_preferences_merges (mkdict [("theme", JStr "light")])
           ann ann_db Hok).
Defined.

(** X3. What [update_user_preferences] returns is what [get_user_preferences]
    reads back from the store it leaves, and reading does not change that
    store. *)
Theorem update_then_get_preferences (preferences : dict) u db :
  store_ok db →
  ∃ merged : dict,
    fst (update_user_preferences preferences u db) = Ok merged
    ∧ get_user_preferences u (snd (update_user_preferences preferences u db))
      = (Ok (JDict merged), snd (update_user_preferences preferences u db)).
Proof.
  intros Hok. rewrite (update_user_preferences_eq preferences u db Hok).
  eexists. split; [reflexivity |]. simpl.
  eapply get_user_preferences_present.
  - apply lookup_insert_eq.
  - apply lookup_insert_eq.
Qed.

Lemma update_then_get_preferences_witness :
  store_ok fake_profiles_db
  ∧ ∃ merged : dict,
      fst (update_user_preferences (mkdict [("theme", JStr "light")])
             johndoe fake_profiles_db) = Ok merged
      ∧ get_user_preferences johndoe
          (snd (update_user_preferences (mkdict [("theme", JStr "light")])
                  johndoe fake_profiles_db))
        = (Ok (JDict merged),
           snd (update_user_preferences (mkdict [("theme", JStr "light")])
                  johndoe fake_profiles_db)).
Proof.
  split; [apply fake_profiles_db_ok |].
  exact (update_then_get_preferences (mkdict [("theme", JStr "light")])
           johndoe fake_profiles_db fake_profiles_db_ok).
Defined.

(** X4. For a caller without a record, the preferences read before any write
    are the defaults; after [update_user_preferences] they are exactly the
    given mapping, with no default behind it; after [update_user_profile]
    with that mapping they are the mapping over the defaults. *)
Theorem first_write_decides_defaults
  (preferences : dict) (pu : UserProfileUpdate) u db :
  store_ok db →
  db !! username u = None →
  upd_preferences pu = Some preferences →
  fst (get_user_preferences u db) = Ok (JDict default_preferences)
  ∧ fst (get_user_preferences u
           (snd (update_user_preferences preferences u db)))
    = Ok (JDict preferences)
  ∧ fst (get_user_preferences u (snd (update_user_profile pu u db)))
    = Ok (JDict (preferences ∪ default_preferences)).
Proof.
  intros Hok H Hpu. split; [| split].
  - unfold get_user_preferences. by rewrite H.
  - rewrite (update_user_preferences_eq preferences u db Hok). simpl.
    destruct (record_before_absent u ∅ db H) as [_ ->].
    rewrite (right_id_L ∅ (∪)).
    erewrite get_user_preferences_present; [done | apply lookup_insert_eq |].
    apply lookup_insert_eq.
  - rewrite (update_user_profile_eq pu u db Hok). simpl.
    destruct (record_before_absent u default_preferences db H) as [-> _].
    erewrite get_user_preferences_present; [| apply lookup_insert_eq |].
    + reflexivity.
    + rewrite (updated_preferences pu _ default_preferences) by reflexivity.
      by rewrite Hpu.
Qed.

Lemma first_write_decides_defaults_witness :
  store_ok fake_profiles_db
  ∧ fake_profiles_db !! username ann = None
  ∧ fst (get_user_preferences ann fake_profiles_db)
    = Ok (JDict default_preferences)
  ∧ fst (get_user_preferences ann
           (snd (update_user_preferences
                   (mkdict [("study_reminder", JBool true)])
                   ann fake_profiles_db)))
    = Ok (JDict (mkdict [("study_reminder", JBool true)]))
  ∧ fst (get_user_preferences ann
           (snd (update_user_profile study_reminder_on ann fake_profiles_db)))
    = Ok (JDict (mkdict [("study_reminder", JBool true)]
                 ∪ default_preferences)).
Proof.
  split; [apply fake_profiles_db_ok |]. split; [reflexivity |].
  exact (first_write_decides_defaults
           (mkdict [("study_reminder", JBool true)]) study_reminder_on
           ann fake_profiles_db fake_profiles_db_ok eq_refl eq_refl).
Defined.

End StoreProperties.

Section StoreComposition.
Import Users.
Implicit Types (db : gmap string dict) (p : dict) (u : User).

Lemma ensure_profile_idempotent u (prefs : dict) db :
  ensure_profile u prefs (ensure_profile u prefs db) = ensure_profile u prefs db.
Proof.
  destruct (ensure_profile_lookup u prefs db) as (p & H & _).
  by apply (ensure_profile_present u prefs _ p).
Qed.

(** X5. [get_user_profile] never raises, on any store; it creates at most
    once: a second call returns the same record and leaves the store of the
    first call, and with a record present the store is not written at all. *)
Theorem get_user_profile_idempotent u db :
  (∃ p, get_user_profile u db = (Ok p, snd (get_user_profile u db))
        ∧ snd (get_user_profile u db) !! username u = Some p)
  ∧ get_user_profile u (snd (get_user_profile u db)) = get_user_profile u db
  ∧ (∀ p, db !! username u = Some p → get_user_profile u db = (Ok p, db)).
Proof.
  split; [| split].
  - unfold get_user_profile, db_getitem. simpl.
    destruct (ensure_profile_lookup u default_preferences db) as (p & H & _).
    exists p. by rewrite H.
  - unfold get_user_profile. simpl. by rewrite ensure_profile_idempotent.
  - intros p H. by apply get_user_profile_present.
Qed.

(** X6. Sending the same profile update twice is the same as sending it
    once: the second call returns the record of the first and leaves its
    store. *)
Theorem update_user_profile_idempotent (pu : UserProfileUpdate) u db :
  store_ok db →
  update_user_profile pu u (snd (update_user_profile pu u db))
  = update_user_profile pu u db.
Proof.
  intros Hok.
  pose proof (update_user_profile_keeps_ok pu u db Hok) as Hok'.
  rewrite (update_user_profile_eq pu u _ Hok').
  rewrite (update_user_profile_eq pu u db Hok) in *. simpl.
  rewrite (record_before_present u _ _ _ (lookup_insert_eq _ _ _)).
  pose proof (record_before_preferences u default_preferences db Hok) as Hold.
  rewrite (updated_idempotent pu _ _ Hold).
  by rewrite insert_insert_eq.
Qed.

Lemma update_user_profile_idempotent_witness :
  store_ok fake_profiles_db
  ∧ update_user_profile study_reminder_on ann
      (snd (update_user_profile study_reminder_on ann fake_profiles_db))
    = update_user_profile study_reminder_on ann fake_profiles_db.
Proof.
  split; [apply fake_profiles_db_ok |].
  exact (update_user_profile_idempotent study_reminder_on ann
           fake_profiles_db fake_profiles_db_ok).
Defined.

(** X7. Two preference updates in a row are one update with the second
    mapping laid over the first: the same mapping is returned and the same
    store is left. *)
Theorem update_user_preferences_twice (first second : dict) u db :
  store_ok db →
  update_user_preferences second u
    (snd (update_user_preferences first u db))
  = update_user_preferences (second ∪ first) u db.
Proof.
  intros Hok.
  pose proof (update_user_preferences_keeps_ok first u db Hok) as Hok'.
  rewrite (update_user_preferences_eq second u _ Hok').
  rewrite (update_user_preferences_eq (second ∪ first) u db Hok).
  rewrite (update_user_preferences_eq first u db Hok) in *. simpl.
  rewrite (record_before_present u _ _ _ (lookup_insert_eq _ _ _)).
  unfold preferences_of at 1 3. rewrite lookup_insert_eq.
  rewrite !(assoc_L (∪)).
  by rewrite insert_insert_eq, insert_insert_eq.
Qed.

Lemma update_user_preferences_twice_witness :
  store_ok ann_db
  ∧ update_user_preferences (mkdict [("theme", JStr "light")]) ann
      (snd (update_user_preferences
              (mkdict [("theme", JStr "blue"); ("lang", JStr "en")])
              ann ann_db))
    = update_user_preferences
        (mkdict [("theme", JStr "light")]
         ∪ mkdict [("theme", JStr "blue"); ("lang", JStr "en")])
        ann ann_db.
Proof.
  assert (store_ok ann_db) as Hok.
  { apply insert_ok; [apply fake_profiles_db_ok |].
    split; [reflexivity | eexists; reflexivity]. }
  split; [exact Hok |].
  exact (update_user_preferences_twice _ _ ann ann_db Hok).
Defined.

(** X8. [get_user_profile] after [update_user_profile] returns the record
    the update returned and leaves the store of the update. *)
Theorem update_then_get_profile (pu : UserProfileUpdate) u db :
  store_ok db →
  get_user_profile u (snd (update_user_profile pu u db))
  = update_user_profile pu u db.
Proof.
  intros Hok. rewrite (update_user_profile_eq pu u db Hok). simpl.
  apply get_user_profile_present, lookup_insert_eq.
Qed.

Lemma update_then_get_profile_witness :
  store_ok fake_profiles_db
  ∧ get_user_profile johndoe
      (snd (update_user_profile study_reminder_on johndoe fake_profiles_db))
    = update_user_profile study_reminder_on johndoe fake_profiles_db.
Proof.
  split; [apply fake_profiles_db_ok |].
  exact (update_then_get_profile study_reminder_on johndoe
           fake_profiles_db fake_profiles_db_ok).
Defined.

(** X9. [update_user_preferences] with the empty mapping on an existing
    record returns its preferences and leaves the store as it was. *)
Theorem update_user_preferences_empty u db p (old : dict) :
  db !! username u = Some p →
  p !! "preferences" = Some (JDict old) →
  update_user_preferences ∅ u db = (Ok old, db).
Proof.
  intros Hp Hold. unfold update_user_preferences, db_getitem.
  rewrite (ensure_profile_present _ _ _ _ Hp), Hp.
  rewrite (ensure_preferences_present _ _ Hold).
  rewrite (update_preferences_of_dict _ _ _ Hold).
  rewrite (left_id_L ∅ (∪)).
  by rewrite (insert_id p _ _ Hold), (insert_id db _ _ Hp).
Qed.

Lemma update_user_preferences_empty_witness :
  update_user_preferences ∅ ann ann_db
  = (Ok (mkdict [("theme", JStr "dark"); ("notifications", JBool true)]),
     ann_db).
Proof.
  exact (update_user_preferences_empty ann ann_db _ _ eq_refl eq_refl).
Defined.

End StoreComposition.

(** ** More on the document catalog *)

Section CatalogFacts.
Import Docs.

Lemma get_doc_items_elem (c : string) (item : DocItem) :
  item ∈ get_doc_items (Some c)
  ↔ item ∈ doc_items ∧ (c = "" ∨ category_id item = c).
Proof.
  unfold get_doc_items. destruct c as [|a c]; simpl.
  - split; [intros H; split; [done | by left] | by intros [H _]].
  - rewrite list_elem_of_filter. split.
    + intros [H1 H2]. split; [done | by right].
    + intros [H1 [H2 | H2]]; [discriminate H2 | done].
Qed.

(** X10. [get_doc_items] lists a sublist of the catalog, in catalog order:
    all of it without a category id or with the empty one, otherwise the
    items of that category; a category id that no item has gives the empty
    list, not an error. *)
Theorem get_doc_items_by_category (c : option string) :
  get_doc_items c `sublist_of` doc_items
  ∧ (∀ item, item ∈ get_doc_items c
             ↔ item ∈ doc_items
               ∧ (c = None ∨ c = Some "" ∨ c = Some (category_id item)))
  ∧ (c = None ∨ c = Some "" → get_doc_items c = doc_items)
  ∧ (c ≠ None → c ≠ Some "" →
     (∀ item, item ∈ doc_items → c ≠ Some (category_id item)) →
     get_doc_items c = []).
Proof.
  split; [| split; [| split]].
  - destruct c as [[|a c] |]; simpl; [done | apply sublist_filter | done].
  - intros item. destruct c as [c |].
    + rewrite get_doc_items_elem. split.
      * intros [H [-> | <-]]; auto.
      * intros [H [H' | [[= <-] | [= <-]]]]; [done | auto ..].
    + simpl. split; [auto | by intros [H _]].
  - by intros [-> | ->].
  - intros H1 H2 H. destruct c as [c |]; [| done].
    apply elem_of_nil_inv. intros item Hin.
    apply get_doc_items_elem in Hin as [Hin [-> | <-]]; [done |].
    by apply (H item).
Qed.

Example get_doc_items_security : get_doc_items (Some "security") = [].
Proof. reflexivity. Qed.

Lemma doc_items_categories :
  Forall (λ item, category_id item ≠ ""
                  ∧ category_id item ∈ cat_id <$> doc_categories) doc_items.
Proof. apply (bool_decide_unpack _). vm_compute. exact I. Qed.

Lemma doc_categories_ids : Forall (λ c, cat_id c ≠ "") doc_categories.
Proof. apply (bool_decide_unpack _). vm_compute. exact I. Qed.

(** X11. Browsing by category shows every catalog item exactly once: each
    item is listed under one category of [get_doc_categories] and under no
    category with another id, and the category ids are pairwise distinct. *)
Theorem every_item_under_one_category (item : DocItem) :
  item ∈ doc_items →
  NoDup (cat_id <$> get_doc_categories)
  ∧ ∃ c, c ∈ get_doc_categories
         ∧ item ∈ get_doc_items (Some (cat_id c))
         ∧ ∀ c', c' ∈ get_doc_categories →
                 item ∈ get_doc_items (Some (cat_id c')) →
                 cat_id c' = cat_id c.
Proof.
  intros Hin. split.
  { apply (bool_decide_unpack _). vm_compute. exact I. }
  pose proof doc_items_categories as Hall.
  rewrite Forall_forall in Hall. destruct (Hall item Hin) as [Hne Hcat].
  apply list_elem_of_fmap in Hcat as (c & Hc & Hcin).
  exists c. split; [done |]. split.
  - apply get_doc_items_elem. split; [done | by right].
  - intros c' Hc' H. apply get_doc_items_elem in H as [_ [H | H]].
    + pose proof doc_categories_ids as Hids.
      rewrite Forall_forall in Hids. by destruct (Hids c' Hc').
    + congruence.
Qed.

Lemma every_item_under_one_category_witness :
  NoDup (cat_id <$> get_doc_categories)
  ∧ ∃ c, c ∈ get_doc_categories
         ∧ architecture_item ∈ get_doc_items (Some (cat_id c))
         ∧ ∀ c', c' ∈ get_doc_categories →
                 architecture_item ∈ get_doc_items (Some (cat_id c')) →
                 cat_id c' = cat_id c.
Proof.
  apply (every_item_under_one_category architecture_item).
  apply list_elem_of_here.
Defined.

End CatalogFacts.

Section SearchFacts.
Import Docs.

Lemma occurs_trans (a b s : string) : occurs a b → occurs b s → occurs a s.
Proof.
  intros (p2 & q2 & ->) (p1 & q1 & ->).
  exists (p1 +:+ p2), (q2 +:+ q1). by rewrite !app_assoc_str.
Qed.

Lemma occurs_ignoring_case_lower (sub s : string) :
  occurs_ignoring_case sub s ↔ occurs (PyStr.lower sub) (PyStr.lower s).
Proof. by rewrite <- contains_lower, contains_occurs. Qed.

Lemma occurs_ignoring_case_trans (a b s : string) :
  occurs_ignoring_case a b → occurs_ignoring_case b s →
  occurs_ignoring_case a s.
Proof. rewrite !occurs_ignoring_case_lower. apply occurs_trans. Qed.

Lemma search_hit_narrows (q1 q2 : string) (item : DocItem) :
  occurs_ignoring_case q1 q2 → search_hit q2 item → search_hit q1 item.
Proof.
  intros H [H2 | (s & Hs & H2)].
  - left. by apply (occurs_ignoring_case_trans q1 q2).
  - right. exists s. split; [done |].
    by apply (occurs_ignoring_case_trans q1 q2).
Qed.

(** X12. A longer query narrows the search: when [q1] occurs in [q2] up to
    letter case, the items found for [q2] are among the items found for
    [q1], in the same order. *)
Theorem search_docs_narrows (q1 q2 : string) :
  occurs_ignoring_case q1 q2 →
  search_docs q2 `sublist_of` search_docs q1
  ∧ ∀ item, item ∈ search_docs q2 → item ∈ search_docs q1.
Proof.
  intros H.
  assert (search_docs q2 `sublist_of` search_docs q1) as Hsub.
  { unfold search_docs. rewrite !search_in_filter. simpl.
    rewrite <- (list_filter_filter_l (λ item, matches q2 item = true)
                  (λ item, matches q1 item = true)).
    - apply sublist_filter.
    - intros item. rewrite !matches_search_hit. by apply search_hit_narrows. }
  split; [done |].
  intros item. by apply sublist_subseteq.
Qed.

Lemma search_docs_narrows_witness :
  occurs_ignoring_case "guide" "Study Guides"
  ∧ search_docs "Study Guides" `sublist_of` search_docs "guide"
  ∧ ∀ item, item ∈ search_docs "Study Guides" → item ∈ search_docs "guide".
Proof.
  assert (occurs_ignoring_case "guide" "Study Guides") as H.
  { by exists "Study ", "Guide", "s". }
  split; [exact H |].
  exact (search_docs_narrows "guide" "Study Guides" H).
Defined.

(** X13. The search reads the query only through its lower-case form: two
    queries that differ in letter case only find the same items. *)
Theorem search_docs_query_case (q q' : string) :
  PyStr.lower q' = PyStr.lower q → search_docs q' = search_docs q.
Proof.
  intros H. unfold search_docs. rewrite !search_in_filter. simpl.
  apply list_filter_iff. intros item. unfold matches. by rewrite H.
Qed.

Lemma search_docs_query_case_witness :
  search_docs "CANVAS lms" = search_docs "Canvas LMS".
Proof. exact (search_docs_query_case "Canvas LMS" "CANVAS lms" eq_refl). Defined.

End SearchFacts.

(** ** More on the query façade *)

Section FacadeFacts.
Import Agents.

(** The three answers of the synthesis have the same shape. *)
Lemma mock_agent_response_str_shape (q : string) (ctx : json) :
  ∃ (d cx : dict) (text : string) (srcs : list json),
    mock_agent_response (JStr q) ctx = Ok (JDict d)
    ∧ dom d = response_keys
    ∧ d !! "response" = Some (JStr text)
    ∧ text ≠ ""
    ∧ d !! "sources" = Some (JList srcs)
    ∧ length srcs ≤ 2
    ∧ Forall (λ s, ∃ title url, s = source_ref title url) srcs
    ∧ d !! "context" = Some (JDict cx).
Proof.
  unfold mock_agent_response. simpl.
  destruct (PyStr.contains _ _); [| destruct (PyStr.contains _ _)].
  - eexists _, _, _, _. split; [reflexivity |].
    split; [by vm_compute |]. split; [reflexivity |]. split; [done |].
    split; [reflexivity |]. split; [simpl; lia |].
    split; [| reflexivity]. repeat constructor; by eexists _, _.
  - eexists _, _, _, _. split; [reflexivity |].
    split; [by vm_compute |]. split; [reflexivity |]. split; [done |].
    split; [reflexivity |]. split; [simpl; lia |].
    split; [| reflexivity]. repeat constructor; by eexists _, _.
  - eexists _, _, _, _. split; [reflexivity |].
    split; [by vm_compute |]. split; [reflexivity |]. split; [done |].
    split; [reflexivity |]. split; [simpl; lia |].
    split; [constructor | reflexivity].
Qed.

(** X14. On every query string the synthesis returns, without raising, an
    object with exactly the keys [response], [sources] and [context]: a
    non-empty response text, at most two sources, each a title with a url,
    and a mapping as context. *)
Theorem mock_agent_response_shape (q : string) (ctx : json) :
  ∃ (d cx : dict) (text : string) (srcs : list json),
    mock_agent_response (JStr q) ctx = Ok (JDict d)
    ∧ dom d = response_keys
    ∧ d !! "response" = Some (JStr text)
    ∧ text ≠ ""
    ∧ d !! "sources" = Some (JList srcs)
    ∧ length srcs ≤ 2
    ∧ Forall (λ s, ∃ title url, s = source_ref title url) srcs
    ∧ d !! "context" = Some (JDict cx).
Proof. apply mock_agent_response_str_shape. Qed.

End FacadeFacts.

Section ChannelFacts.
Import Agents.
Variable json_loads : string → result json.

Lemma error_frame_keys (msg : string) :
  field "error" (error_frame msg) = Some (JStr msg)
  ∧ field "response" (error_frame msg) = None.
Proof. split; reflexivity. Qed.

(** [process] on a decoded frame, by the kind of the value. *)
Lemma process_loaded (data : string) (v : json) :
  json_loads data = Ok v →
  process json_loads data
  = match v with
    | JDict message =>
        mock_agent_response (default (JStr "") (message !! "query"))
          (default (JDict ∅) (message !! "context"))
    | _ => no_attribute v "get"
    end.
Proof. intros H. unfold process. rewrite H. by destruct v. Qed.

Lemma mock_agent_response_not_str (query ctx : json) :
  (∀ q, query ≠ JStr q) →
  mock_agent_response query ctx = no_attribute query "lower".
Proof.
  intros H. unfold mock_agent_response.
  destruct query; try reflexivity. by destruct (H s).
Qed.

(** X15. Every frame the channel sends is either an error frame, an object
    with the single key [error], or a response object with exactly the keys
    [response], [sources], [context] and so without the key [error]; a
    client can tell the two apart by that key. *)
Theorem reply_is_error_or_response (data : string) :
  (∃ msg, reply json_loads data = error_frame msg
          ∧ field "error" (reply json_loads data) = Some (JStr msg)
          ∧ field "response" (reply json_loads data) = None)
  ∨ (∃ d : dict, reply json_loads data = JDict d
                 ∧ dom d = response_keys
                 ∧ field "error" (reply json_loads data) = None).
Proof.
  unfold reply.
  destruct (process json_loads data) as [r | e] eqn:E.
  - right. revert E. unfold process.
    destruct (json_loads data) as [v | e]; [| discriminate].
    destruct v; try discriminate. simpl.
    destruct (default (JStr "") (d !! "query")) as [| | | | q | |] eqn:Eq;
      try discriminate.
    destruct (mock_agent_response_str_shape q
                (default (JDict ∅) (d !! "context")))
      as (d' & cx & text & srcs & -> & Hdom & _).
    intros [= <-]. exists d'. split; [done |]. split; [done |].
    simpl. apply not_elem_of_dom. rewrite Hdom. by vm_compute.
  - left. destruct e; eexists; (split; [reflexivity | apply error_frame_keys]).
Qed.

(** X16. The error frames of the channel name the failure. A frame that
    decodes to something other than an object is answered with the missing
    attribute [get] of its type; an object whose [query] is present and not
    a string (a number, [null], a list) with the missing attribute [lower];
    an exception of the decoder other than the decode error with its text. *)
Theorem reply_names_the_failure (data : string) :
  (∀ v, json_loads data = Ok v → (∀ message, v ≠ JDict message) →
     reply json_loads data
     = error_frame ("Error processing request: '" +:+ type_name v
                    +:+ "' object has no attribute 'get'"))
  ∧ (∀ message w,
       json_loads data = Ok (JDict message) →
       message !! "query" = Some w → (∀ q, w ≠ JStr q) →
       reply json_loads data
       = error_frame ("Error processing request: '" +:+ type_name w
                      +:+ "' object has no attribute 'lower'"))
  ∧ (∀ e, json_loads data = Raise e → (∀ msg, e ≠ JSONDecodeError msg) →
       reply json_loads data
       = error_frame ("Error processing request: " +:+ exn_str e)).
Proof.
  split; [| split].
  - intros v H Hv. unfold reply. rewrite (process_loaded data v H).
    destruct v; try reflexivity. by destruct (Hv d).
  - intros message w H Hw Hq. unfold reply.
    rewrite (process_loaded data _ H), Hw. simpl.
    rewrite (mock_agent_response_not_str w _ Hq). reflexivity.
  - intros e H He. unfold reply, process. rewrite H. simpl.
    destruct e; try reflexivity. by destruct (He msg).
Qed.

Lemma websocket_endpoint_grows (events : list incoming) (sent : list json) :
  ∃ more, snd (websocket_endpoint json_loads events sent) = sent ++ more
          ∧ length more ≤ length events.
Proof.
  revert sent. induction events as [|[data |] events IH]; intros sent; simpl.
  - exists []. by rewrite app_nil_r.
  - destruct (IH (sent ++ [reply json_loads data])) as (more & -> & Hlen).
    exists (reply json_loads data :: more).
    split; [by rewrite <- app_assoc | simpl; lia].
  - exists []. split; [by rewrite app_nil_r | simpl; lia].
Qed.

(** X17. The loop can be followed in two stretches: after a first run of
    events that ends still receiving, the later events are handled from the
    frames sent so far; once it has exited on a disconnect nothing that
    arrives later is handled. Frames already sent stay sent, and at most one
    frame is added per event. *)
Theorem websocket_endpoint_resumes
  (events later : list incoming) (sent : list json) :
  websocket_endpoint json_loads (events ++ later) sent
  = (match websocket_endpoint json_loads events sent with
     | (Receiving, sent') => websocket_endpoint json_loads later sent'
     | (Exited, sent') => (Exited, sent')
     end)
  ∧ ∃ more, snd (websocket_endpoint json_loads events sent) = sent ++ more
            ∧ length more ≤ length events.
Proof.
  split; [| apply websocket_endpoint_grows].
  revert sent. induction events as [|[data |] events IH]; intros sent; simpl.
  - done.
  - apply IH.
  - done.
Qed.

End ChannelFacts.

Lemma reply_names_the_failure_witness :
  Agents.reply sample_loads "[]"
  = Agents.error_frame
      "Error processing request: 'list' object has no attribute 'get'"
  ∧ Agents.reply sample_loads "null"
    = Agents.error_frame
        "Error processing request: 'NoneType' object has no attribute 'get'".
Proof.
  split.
  - apply (proj1 (reply_names_the_failure sample_loads "[]") (JList []));
      [reflexivity | discriminate].
  - apply (proj1 (reply_names_the_failure sample_loads "null") JNull);
      [reflexivity | discriminate].
Defined.
